(** * docs-index: the documentation index resource server

    A shallow embedding of [mcp-servers/docs-index/server.py].  The server
    reloads a JSON document on every request and answers two handlers,
    [list_resources] and [read_resource].  Python [str] values are modelled
    as [string], the loaded JSON object as an insertion-ordered association
    list, raised exceptions as the left summand of a result, and the file
    the handlers read as a field of an explicit [world].  The URL type of
    [mcp.types.Resource] belongs to a library outside the repository; the
    handlers are modelled over any such type. *)

From Stdlib Require Import Strings.String Strings.Ascii Lists.List Bool.Bool.
From Stdlib Require Import Arith.PeanoNat micromega.Lia.
Import ListNotations.
Local Open Scope list_scope.
Local Open Scope string_scope.

(** ** Python string operations used by the handlers *)

Module Str.

(** The newline character of the triple-quoted literal. *)
Definition nl : string := String (ascii_of_nat 10) EmptyString.

(** [s.startswith(p)] *)
Fixpoint startswith (p s : string) : bool :=
  match p with
  | EmptyString => true
  | String a p' =>
      match s with
      | EmptyString => false
      | String b s' => if Ascii.eqb a b then startswith p' s' else false
      end
  end.

(** Left-to-right scan of [s.replace(old, new)] for a non-empty [old]:
    [skip] counts the characters of a matched occurrence that are still to
    be dropped. *)
Fixpoint replace_from (old new : string) (skip : nat) (s : string) : string :=
  match s with
  | EmptyString => EmptyString
  | String c s' =>
      match skip with
      | S k => replace_from old new k s'
      | O =>
          if startswith old s
          then new ++ replace_from old new (pred (String.length old)) s'
          else String c (replace_from old new 0 s')
      end
  end.

(** [s.replace("", new)] puts [new] before every character and at the end. *)
Fixpoint intersperse (new s : string) : string :=
  match s with
  | EmptyString => new
  | String c s' => new ++ String c (intersperse new s')
  end.

(** [s.replace(old, new)]: every non-overlapping occurrence of [old], found
    from the left, is replaced by [new]. *)
Definition replace (old new s : string) : string :=
  match old with
  | EmptyString => intersperse new s
  | String _ _ => replace_from old new 0 s
  end.

(** [s.split(sep)] for a one-character separator: never empty, and empty
    pieces are kept. *)
Fixpoint split (sep : ascii) (s : string) : list string :=
  match s with
  | EmptyString => [EmptyString]
  | String c s' =>
      if Ascii.eqb c sep then EmptyString :: split sep s'
      else match split sep s' with
           | [] => [String c EmptyString]
           | piece :: pieces => String c piece :: pieces
           end
  end.

(** [sep.join(pieces)] *)
Fixpoint join (sep : string) (pieces : list string) : string :=
  match pieces with
  | [] => EmptyString
  | [piece] => piece
  | piece :: rest => piece ++ sep ++ join sep rest
  end.

(** [sub in s] as a proposition. *)
Definition contains (s sub : string) : Prop :=
  exists before after, s = before ++ sub ++ after.

(** No ["/"] occurs in [s]. *)
Fixpoint slash_free (s : string) : bool :=
  match s with
  | EmptyString => true
  | String c s' => negb (Ascii.eqb c "/") && slash_free s'
  end.

End Str.

(** ** The loaded document *)

(** One entry object of the JSON document.  [tags] and [related] are read
    with [item.get(key, [])], so the key may be absent. *)
Module Item.
Record t : Type := mk {
  id : string;
  name : string;
  description : string;
  url : string;
  tags : option (list string);
  related : option (list string)
}.
End Item.

(** [mcp.types.Resource] declares its [uri] field with the URL type of the
    pydantic library, which is not part of the repository.  The constructor
    parses the string it is given: it may refuse it, raising a validation
    error, and the URL it keeps may be written differently from the string.
    [validate] is that parse ([None] when it raises) and [str] is [str(url)]. *)
Module AnyUrl.
Record interface : Type := {
  t : Type;
  validate : string -> option t;
  str : t -> string
}.
End AnyUrl.

(** The [Resource] value built by [list_resources], with the four keyword
    arguments the handler passes; [uri] holds the parsed URL. *)
Module Resource.
Record t (url : Type) : Type := mk {
  uri : url;
  name : string;
  description : string;
  mimeType : string
}.
Arguments mk {url}.
Arguments uri {url}.
Arguments name {url}.
Arguments description {url}.
Arguments mimeType {url}.
End Resource.

(** The object [json.load] returns: a [dict] from category to a list of
    entries, iterated in insertion order. *)
Definition docs_t : Type := list (string * list Item.t).

(** [key in d] and [d[key]] for a present key. *)
Fixpoint dict_get {V : Type} (d : list (string * V)) (key : string) : option V :=
  match d with
  | [] => None
  | (k, v) :: d' => if String.eqb k key then Some v else dict_get d' key
  end.

(** [d.get(key, default)] on an optional field. *)
Definition get_default {V : Type} (field : option V) (default : V) : V :=
  match field with
  | Some v => v
  | None => default
  end.

(** A Python [dict] holds each key once. *)
Fixpoint keys_unique {V : Type} (d : list (string * V)) : bool :=
  match d with
  | [] => true
  | (k, _) :: d' =>
      match dict_get d' k with
      | Some _ => false
      | None => keys_unique d'
      end
  end.

(** ** Exceptions, the world and the handler monad *)

(** What a handler can raise: the three [ValueError]s of [read_resource],
    whatever [open] or [json.load] raise in [load_docs], and the validation
    error of the [Resource] constructor for the string it refuses. *)
Inductive exn : Type :=
| ValueError (msg : string)
| LoadFailure
| ValidationError (raw : string).

(** The part of the environment the handlers touch: what [json.load] makes
    of [DOCS_FILE], or [None] when the file is missing or is not JSON. *)
Record world : Type := mkWorld {
  docs_file : option docs_t
}.

Definition M (A : Type) : Type := world -> (exn + A) * world.

Definition ret {A : Type} (a : A) : M A := fun w => (inr a, w).

Definition raise {A : Type} (e : exn) : M A := fun w => (inl e, w).

Definition bind {A B : Type} (m : M A) (k : A -> M B) : M B :=
  fun w =>
    match m w with
    | (inl e, w') => (inl e, w')
    | (inr a, w') => k a w'
    end.

Notation "x <- m ;; k" := (bind m (fun x => k))
  (at level 61, m at next level, right associativity).

(** The world in which [DOCS_FILE] holds the document [d]. *)
Definition with_docs (d : docs_t) : world := mkWorld (Some d).

(** ** The server *)

Definition load_docs : M docs_t :=
  fun w =>
    match docs_file w with
    | Some d => (inr d, w)
    | None => (inl LoadFailure, w)
    end.

(** The f-string of [list_resources]: the URI as the handler builds it. *)
Definition built_uri (category : string) (item : Item.t) : string :=
  "docs://" ++ category ++ "/" ++ Item.id item.

(** The body of the inner loop of [list_resources]: the [Resource]
    constructor parses the built URI, and raises when it refuses it. *)
Definition resource_of (U : AnyUrl.interface) (category : string) (item : Item.t)
  : exn + Resource.t (AnyUrl.t U) :=
  match AnyUrl.validate U (built_uri category item) with
  | Some url =>
      inr (Resource.mk url (Item.name item) (Item.description item) "text/plain")
  | None => inl (ValidationError (built_uri category item))
  end.

(** The inner [for] loop, appending to [resources] until the constructor
    raises. *)
Fixpoint append_items (U : AnyUrl.interface) (category : string)
         (items : list Item.t) (resources : list (Resource.t (AnyUrl.t U)))
  : exn + list (Resource.t (AnyUrl.t U)) :=
  match items with
  | [] => inr resources
  | item :: rest =>
      match resource_of U category item with
      | inl e => inl e
      | inr resource =>
          append_items U category rest (resources ++ [resource])%list
      end
  end.

(** The outer [for] loop over [docs.items()]. *)
Fixpoint list_resources_loop (U : AnyUrl.interface) (docs : docs_t)
         (resources : list (Resource.t (AnyUrl.t U)))
  : exn + list (Resource.t (AnyUrl.t U)) :=
  match docs with
  | [] => inr resources
  | (category, items) :: rest =>
      match append_items U category items resources with
      | inl e => inl e
      | inr resources' => list_resources_loop U rest resources'
      end
  end.

Definition list_resources (U : AnyUrl.interface)
  : M (list (Resource.t (AnyUrl.t U))) :=
  docs <- load_docs ;;
  match list_resources_loop U docs [] with
  | inl e => raise e
  | inr resources => ret resources
  end.

(** The f-string of [read_resource]. *)
Definition content (item : Item.t) : string :=
  "# " ++ Item.name item ++ Str.nl
  ++ Str.nl
  ++ Item.description item ++ Str.nl
  ++ Str.nl
  ++ "## Documentation URL" ++ Str.nl
  ++ Item.url item ++ Str.nl
  ++ Str.nl
  ++ "## Tags" ++ Str.nl
  ++ Str.join ", " (get_default (Item.tags item) []) ++ Str.nl
  ++ Str.nl
  ++ "## Related Topics" ++ Str.nl
  ++ Str.join ", " (get_default (Item.related item) []) ++ Str.nl.

(** The [for item in docs[category]] loop: [Some] is the early [return],
    [None] is falling off the end of the loop. *)
Fixpoint find_document (items : list Item.t) (doc_id : string) : option string :=
  match items with
  | [] => None
  | item :: rest =>
      if String.eqb (Item.id item) doc_id then Some (content item)
      else find_document rest doc_id
  end.

(** [uri.replace("docs://", "").split("/")] *)
Definition uri_parts (uri : string) : list string :=
  Str.split "/" (Str.replace "docs://" "" uri).

Definition read_resource (uri : string) : M string :=
  docs <- load_docs ;;
  match uri_parts uri with
  | [category; doc_id] =>
      match dict_get docs category with
      | None => raise (ValueError ("Category not found: " ++ category))
      | Some items =>
          match find_document items doc_id with
          | Some text => ret text
          | None =>
              raise (ValueError
                       ("Document not found: " ++ doc_id ++ " in " ++ category))
          end
      end
  | _ => raise (ValueError ("Invalid URI format: " ++ uri))
  end.

(** ** The error kinds of the specification *)

Definition InvalidUriError (uri : string) : exn :=
  ValueError ("Invalid URI format: " ++ uri).

Definition CategoryNotFoundError (category : string) : exn :=
  ValueError ("Category not found: " ++ category).

Definition DocumentNotFoundError (category doc_id : string) : exn :=
  ValueError ("Document not found: " ++ doc_id ++ " in " ++ category).

(** ** Definitions that follow the specification's words *)

(** "Strip the literal prefix": the prefix is removed when it is there,
    once, at the front. *)
Fixpoint drop (n : nat) (s : string) : string :=
  match n, s with
  | S n', String _ s' => drop n' s'
  | _, _ => s
  end.

Definition spec_strip_prefix (p s : string) : string :=
  if Str.startswith p s then drop (String.length p) s else s.

(** "The remainder does not split into exactly two non-empty segments". *)
Definition spec_malformed (uri : string) : bool :=
  match Str.split "/" (spec_strip_prefix "docs://" uri) with
  | [category; doc_id] => String.eqb category "" || String.eqb doc_id ""
  | _ => true
  end.

(** "{tags joined by ", "}", an absent sequence being empty. *)
Definition spec_joined (field : option (list string)) : string :=
  match field with
  | None => ""
  | Some pieces => String.concat ", " pieces
  end.

(** The template of the specification, ending with the joined related
    topics. *)
Definition spec_template (item : Item.t) : string :=
  "# " ++ Item.name item ++ Str.nl ++ Str.nl
  ++ Item.description item ++ Str.nl ++ Str.nl
  ++ "## Documentation URL" ++ Str.nl ++ Item.url item ++ Str.nl ++ Str.nl
  ++ "## Tags" ++ Str.nl ++ spec_joined (Item.tags item) ++ Str.nl ++ Str.nl
  ++ "## Related Topics" ++ Str.nl ++ spec_joined (Item.related item).

(** The (category, entry) pairs of a document in category-then-insertion
    order. *)
Definition entries (docs : docs_t) : list (string * Item.t) :=
  flat_map (fun '(category, items) => map (pair category) items) docs.

(** "Within a category, id is unique". *)
Fixpoint ids_unique (items : list Item.t) : bool :=
  match items with
  | [] => true
  | item :: rest =>
      negb (existsb (fun other => String.eqb (Item.id other) (Item.id item)) rest)
      && ids_unique rest
  end.

(** Categories and ids are "path-safe": none holds a ["/"]. *)
Definition path_safe (docs : docs_t) : bool :=
  forallb
    (fun '(category, items) =>
       Str.slash_free category
       && forallb (fun item => Str.slash_free (Item.id item)) items)
    docs.

(** A document every entry of which can be addressed by its URI. *)
Definition addressable (docs : docs_t) : bool :=
  keys_unique docs
  && path_safe docs
  && forallb (fun '(_, items) => ids_unique items) docs.

(** ** Sample documents *)

Definition rust_book : Item.t :=
  Item.mk "book" "The Rust Book" "Intro" "https://doc.rust-lang.org/book/"
          (Some ["rust"; "learning"]) (Some []).

Definition sample_docs : docs_t := [("rust", [rust_book])].

(** An entry with neither [tags] nor [related]. *)
Definition bare (doc_id : string) : Item.t :=
  Item.mk doc_id "N" "D" "U" None None.

(** A category whose name holds a ["/"]. *)
Definition nested_docs : docs_t := [("a/b", [bare "x"])].

(** An id that holds the scheme, next to the id that is left of it once
    the scheme is deleted. *)
Definition scheme_docs : docs_t := [("a", [bare "docs://x"; bare "x"])].

(** Two entries of one category with the same id. *)
Definition first_dup : Item.t := Item.mk "dup" "First" "one" "u1" None None.
Definition second_dup : Item.t := Item.mk "dup" "Second" "two" "u2" None None.
Definition dup_docs : docs_t := [("c", [bare "other"; first_dup; second_dup])].

(** [s.count(c)] for one character. *)
Fixpoint str_count (c : ascii) (s : string) : nat :=
  match s with
  | EmptyString => 0
  | String x s' => (if Ascii.eqb x c then 1 else 0) + str_count c s'
  end.

(** The constructor accepts the URI built for the entry. *)
Definition accepts (U : AnyUrl.interface) (entry : string * Item.t) : bool :=
  match AnyUrl.validate U (built_uri (fst entry) (snd entry)) with
  | Some _ => true
  | None => false
  end.

(** What [read_resource] is given when it is called on a listed URI. *)
Definition listed_uri {U : AnyUrl.interface} (resource : Resource.t (AnyUrl.t U))
  : string :=
  AnyUrl.str U (Resource.uri resource).

(** A URL type to run the handlers with.  Like the parser of the library it
    refuses a space in the host, the segment after the scheme, and writes a
    space of the path as [%20]; a URI without spaces it keeps as it is. *)
Definition percent_url : AnyUrl.interface :=
  {| AnyUrl.t := string;
     AnyUrl.validate := fun raw =>
       match Str.split "/" (spec_strip_prefix "docs://" raw) with
       | host :: _ =>
           if Nat.eqb (str_count " " host) 0
           then Some (Str.replace " " "%20" raw)
           else None
       | [] => None
       end;
     AnyUrl.str := fun url => url |}.

(** A category with a space, and an id with a space. *)
Definition spaced_category_docs : docs_t := [("my cat", [bare "x"])].
Definition spaced_id_docs : docs_t := [("a", [bare "an id"])].

(** A world in which [DOCS_FILE] cannot be loaded. *)
Definition no_docs : world := mkWorld None.

(** A second category beside the sample one. *)
Definition two_docs : docs_t :=
  [("rust", [rust_book]); ("go", [bare "tour"; bare "spec"])].

(** * Properties *)

Example list_sample :
  list_resources percent_url (with_docs sample_docs)
  = (inr [Resource.mk "docs://rust/book" "The Rust Book" "Intro" "text/plain"],
     with_docs sample_docs).
Proof. reflexivity. Qed.

Example read_sample :
  fst (read_resource "docs://rust/book" (with_docs sample_docs))
  = inr ("# The Rust Book" ++ Str.nl ++ Str.nl ++ "Intro" ++ Str.nl ++ Str.nl
         ++ "## Documentation URL" ++ Str.nl
         ++ "https://doc.rust-lang.org/book/" ++ Str.nl ++ Str.nl
         ++ "## Tags" ++ Str.nl ++ "rust, learning" ++ Str.nl ++ Str.nl
         ++ "## Related Topics" ++ Str.nl ++ Str.nl).
Proof. reflexivity. Qed.

Example read_one_segment :
  fst (read_resource "docs://onlyonesegment" (with_docs sample_docs))
  = inl (InvalidUriError "docs://onlyonesegment").
Proof. reflexivity. Qed.

Example read_empty_category :
  fst (read_resource "docs:///x" (with_docs sample_docs))
  = inl (CategoryNotFoundError "").
Proof. reflexivity. Qed.

Example replace_examples :
  Str.replace "docs://" "" "docs://a/docs://b" = "a/b"
  /\ Str.replace "docs://" "" "docdocs://s://a" = "docs://a"
  /\ Str.replace "aa" "b" "aaa" = "ba"
  /\ Str.replace "" "-" "abc" = "-a-b-c-"
  /\ Str.split "/" "" = [""]
  /\ Str.split "/" "a//b/" = ["a"; ""; "b"; ""].
Proof. repeat split; reflexivity. Qed.

(** ** Facts about the string operations *)

Lemma append_assoc (a b c : string) : (a ++ b) ++ c = a ++ (b ++ c).
Proof. induction a as [|x a IH]; simpl; [reflexivity | now rewrite IH]. Qed.

Lemma startswith_app (p r : string) : Str.startswith p (p ++ r) = true.
Proof.
  induction p as [|a p IH]; simpl; [reflexivity|].
  now rewrite Ascii.eqb_refl.
Qed.

Lemma startswith_inv (p s : string) :
  Str.startswith p s = true -> exists r, s = p ++ r.
Proof.
  revert s; induction p as [|a p IH]; intros s H; simpl in *.
  - now exists s.
  - destruct s as [|b s]; [discriminate|].
    destruct (Ascii.eqb_spec a b) as [->|]; [|discriminate].
    destruct (IH _ H) as [r ->]. now exists r.
Qed.

Lemma replace_from_skip (old new p s : string) :
  Str.replace_from old new (String.length p) (p ++ s)
  = Str.replace_from old new 0 s.
Proof.
  induction p as [|a p IH]; simpl.
  - destruct s; reflexivity.
  - exact IH.
Qed.

(** The two equations of the left-to-right scan: an occurrence at the front
    is replaced and the scan goes on behind it; otherwise one character is
    kept. *)
Lemma replace_match (a : ascii) (old new s : string) :
  Str.replace (String a old) new (String a old ++ s)
  = new ++ Str.replace (String a old) new s.
Proof.
  unfold Str.replace.
  change (String a old ++ s) with (String a (old ++ s)).
  cbn [Str.replace_from].
  change (String a (old ++ s)) with (String a old ++ s).
  rewrite startswith_app.
  cbn [String.length pred].
  now rewrite replace_from_skip.
Qed.

Lemma replace_keep (old new : string) (c : ascii) (s : string) :
  old <> "" ->
  Str.startswith old (String c s) = false ->
  Str.replace old new (String c s) = String c (Str.replace old new s).
Proof.
  intros Hold H. destruct old as [|a old]; [congruence|].
  unfold Str.replace. cbn [Str.replace_from]. now rewrite H.
Qed.

Lemma split_not_nil (sep : ascii) (s : string) : Str.split sep s <> [].
Proof.
  destruct s as [|c s]; simpl; [discriminate|].
  destruct (Ascii.eqb c sep); [discriminate|].
  destruct (Str.split sep s); discriminate.
Qed.

Lemma split_length_cons (sep c : ascii) (s : string) :
  List.length (Str.split sep s) <= List.length (Str.split sep (String c s)).
Proof.
  simpl. destruct (Ascii.eqb c sep); simpl; [lia|].
  destruct (Str.split sep s); simpl; lia.
Qed.

Lemma split_scheme (r : string) :
  3 <= List.length (Str.split "/" ("docs://" ++ r)).
Proof.
  pose proof (split_not_nil "/" r) as H.
  cbn. destruct (Str.split "/" r); [congruence|]. simpl. lia.
Qed.

(** A string of at most two segments holds no ["docs://"], so the
    replacement leaves it as it is. *)
Lemma replace_two_segments (s : string) :
  List.length (Str.split "/" s) <= 2 ->
  Str.replace "docs://" "" s = s.
Proof.
  induction s as [|c s IH]; intros H; [reflexivity|].
  rewrite replace_keep.
  - f_equal. apply IH. pose proof (split_length_cons "/" c s). lia.
  - discriminate.
  - destruct (Str.startswith "docs://" (String c s)) eqn:E; [|reflexivity].
    apply startswith_inv in E as [r E]. rewrite E in H.
    pose proof (split_scheme r). lia.
Qed.

Lemma replace_scheme (s : string) :
  Str.replace "docs://" "" ("docs://" ++ s) = Str.replace "docs://" "" s.
Proof. exact (replace_match "d" "ocs://" "" s). Qed.

Lemma split_slash_free (s : string) :
  Str.slash_free s = true -> Str.split "/" s = [s].
Proof.
  induction s as [|c s IH]; simpl; [reflexivity|].
  intros H. apply andb_prop in H as [Hc Hs].
  destruct (Ascii.eqb c "/"); [discriminate|].
  now rewrite (IH Hs).
Qed.

Lemma split_app_slash (a b : string) :
  Str.slash_free a = true ->
  Str.split "/" (a ++ "/" ++ b) = a :: Str.split "/" b.
Proof.
  induction a as [|c a IH]; simpl; [reflexivity|].
  intros H. apply andb_prop in H as [Hc Ha].
  destruct (Ascii.eqb c "/"); [discriminate|].
  simpl in IH. now rewrite (IH Ha).
Qed.

Lemma split_pair (category doc_id : string) :
  Str.slash_free category = true ->
  Str.slash_free doc_id = true ->
  Str.split "/" (category ++ "/" ++ doc_id) = [category; doc_id].
Proof.
  intros Hc Hi. now rewrite split_app_slash, split_slash_free.
Qed.

Lemma uri_parts_schemeless (category doc_id : string) :
  Str.slash_free category = true ->
  Str.slash_free doc_id = true ->
  uri_parts (category ++ "/" ++ doc_id) = [category; doc_id].
Proof.
  intros Hc Hi. unfold uri_parts.
  rewrite replace_two_segments; rewrite split_pair; auto.
Qed.

Lemma uri_parts_scheme (s : string) :
  uri_parts ("docs://" ++ s) = uri_parts s.
Proof. unfold uri_parts. now rewrite replace_scheme. Qed.

Lemma uri_parts_canonical (category doc_id : string) :
  Str.slash_free category = true ->
  Str.slash_free doc_id = true ->
  uri_parts ("docs://" ++ category ++ "/" ++ doc_id) = [category; doc_id].
Proof.
  intros Hc Hi. now rewrite uri_parts_scheme, uri_parts_schemeless.
Qed.

Lemma join_concat (sep : string) (pieces : list string) :
  Str.join sep pieces = String.concat sep pieces.
Proof.
  induction pieces as [|p rest IH]; [reflexivity|].
  destruct rest as [|q rest]; [reflexivity|].
  cbn [Str.join String.concat]. cbn [Str.join String.concat] in IH.
  now rewrite IH.
Qed.

Lemma contains_app (before sub after : string) :
  Str.contains (before ++ sub ++ after) sub.
Proof. now exists before, after. Qed.

(** ** Facts about the document and the two loops *)

Lemma dict_get_in {V : Type} (d : list (string * V)) (key : string) (v : V) :
  keys_unique d = true -> In (key, v) d -> dict_get d key = Some v.
Proof.
  induction d as [|[k v'] d IH]; simpl; [tauto|].
  intros Hu [Heq|Hin].
  - injection Heq as -> ->. now rewrite String.eqb_refl.
  - destruct (dict_get d k) eqn:Hk; [discriminate|].
    destruct (String.eqb_spec k key) as [->|_].
    + rewrite (IH Hu Hin) in Hk. discriminate.
    + now apply IH.
Qed.

Lemma resource_of_inr (U : AnyUrl.interface) (category : string) (item : Item.t)
      (resource : Resource.t (AnyUrl.t U)) :
  resource_of U category item = inr resource <->
  AnyUrl.validate U (built_uri category item) = Some (Resource.uri resource)
  /\ Resource.name resource = Item.name item
  /\ Resource.description resource = Item.description item
  /\ Resource.mimeType resource = "text/plain".
Proof.
  unfold resource_of.
  destruct (AnyUrl.validate U (built_uri category item)) as [url|].
  - split.
    + intros H. injection H as <-. repeat split.
    + intros (Hurl & Hname & Hdesc & Hmime). injection Hurl as ->.
      destruct resource as [u n d m]. cbn in *. now subst.
  - split; [discriminate|]. intros [H _]. discriminate H.
Qed.

Lemma resource_of_inl (U : AnyUrl.interface) (category : string) (item : Item.t)
      (e : exn) :
  resource_of U category item = inl e <->
  AnyUrl.validate U (built_uri category item) = None
  /\ e = ValidationError (built_uri category item).
Proof.
  unfold resource_of.
  destruct (AnyUrl.validate U (built_uri category item)) as [url|].
  - split; [discriminate|]. intros [H _]. discriminate H.
  - split.
    + intros H. injection H as <-. now split.
    + intros [_ ->]. reflexivity.
Qed.

(** The inner loop either appends one descriptor per entry, in order, or
    stops at the first entry the constructor refuses. *)
Lemma append_items_result (U : AnyUrl.interface) (category : string)
      (items : list Item.t) (resources : list (Resource.t (AnyUrl.t U))) :
  match append_items U category items resources with
  | inr listed =>
      exists built,
        listed = (resources ++ built)%list
        /\ Forall2 (fun resource item => resource_of U category item = inr resource)
                   built items
  | inl e => exists item, In item items /\ resource_of U category item = inl e
  end.
Proof.
  revert resources; induction items as [|item items IH]; intros resources.
  - cbn. exists []. split; [now rewrite app_nil_r | constructor].
  - cbn [append_items].
    destruct (resource_of U category item) as [e|resource] eqn:Hres.
    + exists item. split; [now left | exact Hres].
    + specialize (IH (resources ++ [resource])%list).
      destruct (append_items U category items (resources ++ [resource])%list)
        as [e|listed].
      * destruct IH as [refused [Hin Href]]. exists refused.
        split; [now right | exact Href].
      * destruct IH as [built [-> Hall]]. exists (resource :: built).
        split; [now rewrite <- app_assoc | now constructor].
Qed.

Lemma list_resources_loop_result (U : AnyUrl.interface) (docs : docs_t)
      (resources : list (Resource.t (AnyUrl.t U))) :
  match list_resources_loop U docs resources with
  | inr listed =>
      exists built,
        listed = (resources ++ built)%list
        /\ Forall2 (fun resource '(category, item) =>
                      resource_of U category item = inr resource)
                   built (entries docs)
  | inl e =>
      exists category item,
        In (category, item) (entries docs) /\ resource_of U category item = inl e
  end.
Proof.
  revert resources; induction docs as [|[category items] docs IH];
    intros resources.
  - cbn. exists []. split; [now rewrite app_nil_r | constructor].
  - cbn [list_resources_loop]. unfold entries in *. cbn [flat_map].
    pose proof (append_items_result U category items resources) as Hinner.
    destruct (append_items U category items resources) as [e|resources'].
    + destruct Hinner as [item [Hin Href]]. exists category, item.
      split; [|exact Href]. apply in_or_app. left. now apply in_map.
    + destruct Hinner as [first [-> Hfirst]].
      specialize (IH (resources ++ first)%list).
      destruct (list_resources_loop U docs (resources ++ first)%list)
        as [e|listed].
      * destruct IH as (c & item & Hin & Href). exists c, item.
        split; [|exact Href]. apply in_or_app. now right.
      * destruct IH as [rest [-> Hrest]]. exists (first ++ rest)%list.
        split; [now rewrite app_assoc|].
        apply Forall2_app; [|exact Hrest].
        clear -Hfirst. induction Hfirst; cbn; constructor; auto.
Qed.

(** What [list_resources] returns for a loaded document. *)
Lemma list_resources_result (U : AnyUrl.interface) (docs : docs_t) :
  list_resources U (with_docs docs)
  = (match list_resources_loop U docs [] with
     | inl e => inl e
     | inr resources => inr resources
     end, with_docs docs).
Proof.
  unfold list_resources, bind, load_docs, raise, ret. cbn [docs_file with_docs].
  destruct (list_resources_loop U docs []); reflexivity.
Qed.

Lemma list_resources_returned (U : AnyUrl.interface) (docs : docs_t)
      (resources : list (Resource.t (AnyUrl.t U))) :
  fst (list_resources U (with_docs docs)) = inr resources ->
  Forall2 (fun resource '(category, item) =>
             resource_of U category item = inr resource)
          resources (entries docs).
Proof.
  rewrite list_resources_result. cbn [fst].
  pose proof (list_resources_loop_result U docs []) as Hloop.
  destruct (list_resources_loop U docs []) as [e|listed]; [discriminate|].
  intros H. injection H as <-. destruct Hloop as [built [-> Hall]]. exact Hall.
Qed.

Lemma list_resources_raised (U : AnyUrl.interface) (docs : docs_t) (e : exn) :
  fst (list_resources U (with_docs docs)) = inl e ->
  exists category item,
    In (category, item) (entries docs)
    /\ AnyUrl.validate U (built_uri category item) = None
    /\ e = ValidationError (built_uri category item).
Proof.
  rewrite list_resources_result. cbn [fst].
  pose proof (list_resources_loop_result U docs []) as Hloop.
  destruct (list_resources_loop U docs []) as [e'|listed]; [|discriminate].
  intros H. injection H as <-. destruct Hloop as (category & item & Hin & Href).
  apply resource_of_inl in Href as [Hnone ->]. now exists category, item.
Qed.

(** [list_resources] returns exactly when the constructor accepts the URI
    of every entry. *)
Lemma list_resources_returns_iff (U : AnyUrl.interface) (docs : docs_t) :
  (exists resources, fst (list_resources U (with_docs docs)) = inr resources)
  <-> forallb (accepts U) (entries docs) = true.
Proof.
  split.
  - intros [resources Hlist]. apply list_resources_returned in Hlist.
    induction Hlist as [|resource [category item] resources rest Hres _ IH];
      [reflexivity|].
    cbn [forallb]. rewrite IH, andb_true_r.
    apply resource_of_inr in Hres as [Hurl _].
    unfold accepts. cbn [fst snd]. now rewrite Hurl.
  - intros Hall.
    destruct (fst (list_resources U (with_docs docs))) as [e|resources] eqn:Hlist;
      [|now exists resources].
    apply list_resources_raised in Hlist as (category & item & Hin & Hnone & _).
    rewrite forallb_forall in Hall. specialize (Hall _ Hin).
    unfold accepts in Hall. cbn [fst snd] in Hall. now rewrite Hnone in Hall.
Qed.

Lemma Forall2_in_l {A B : Type} (R : A -> B -> Prop) (l : list A) (l' : list B)
      (x : A) :
  Forall2 R l l' -> In x l -> exists y, In y l' /\ R x y.
Proof.
  induction 1 as [|a b l l' Hab _ IH]; [intros []|].
  intros [->|Hin].
  - exists b. split; [now left | assumption].
  - destruct (IH Hin) as [y [Hy HR]]. exists y. split; [now right | assumption].
Qed.

Lemma Forall2_in_r {A B : Type} (R : A -> B -> Prop) (l : list A) (l' : list B)
      (y : B) :
  Forall2 R l l' -> In y l' -> exists x, In x l /\ R x y.
Proof.
  induction 1 as [|a b l l' Hab _ IH]; [intros []|].
  intros [->|Hin].
  - exists a. split; [now left | assumption].
  - destruct (IH Hin) as [x [Hx HR]]. exists x. split; [now right | assumption].
Qed.

Lemma entries_length (docs : docs_t) :
  List.length (entries docs)
  = list_sum (map (fun '(_, items) => List.length items) docs).
Proof.
  unfold entries. induction docs as [|[category items] docs IH]; simpl.
  - reflexivity.
  - now rewrite length_app, length_map, IH.
Qed.

Lemma in_entries (docs : docs_t) (category : string) (item : Item.t) :
  In (category, item) (entries docs)
  <-> exists items, In (category, items) docs /\ In item items.
Proof.
  unfold entries. rewrite in_flat_map. split.
  - intros [[c items] [Hd Hin]]. apply in_map_iff in Hin as [it [Heq Hit]].
    injection Heq as -> ->. now exists items.
  - intros [items [Hd Hit]]. exists (category, items). split; [assumption|].
    now apply in_map.
Qed.

Lemma find_document_first (before after : list Item.t) (item : Item.t)
      (doc_id : string) :
  Forall (fun earlier => Item.id earlier <> doc_id) before ->
  Item.id item = doc_id ->
  find_document (before ++ item :: after) doc_id = Some (content item).
Proof.
  intros Hb Hid. induction Hb as [|earlier before Hne _ IH]; simpl.
  - rewrite Hid. now rewrite String.eqb_refl.
  - destruct (String.eqb_spec (Item.id earlier) doc_id); [contradiction|].
    exact IH.
Qed.

Lemma find_document_cases (items : list Item.t) (doc_id : string) :
  (exists before item after,
      items = (before ++ item :: after)%list
      /\ Forall (fun earlier => Item.id earlier <> doc_id) before
      /\ Item.id item = doc_id
      /\ find_document items doc_id = Some (content item))
  \/ (Forall (fun item => Item.id item <> doc_id) items
      /\ find_document items doc_id = None).
Proof.
  induction items as [|item items IH]; simpl.
  - right. split; [constructor | reflexivity].
  - destruct (String.eqb_spec (Item.id item) doc_id) as [Heq|Hne].
    + left. exists [], item, items. repeat split; auto.
    + destruct IH as [(before & found & after & -> & Hb & Hid & Hf)|[Hall Hf]].
      * left. exists (item :: before), found, after.
        repeat split; auto.
      * right. split; auto.
Qed.

Lemma find_document_unique (items : list Item.t) (item : Item.t) :
  ids_unique items = true -> In item items ->
  find_document items (Item.id item) = Some (content item).
Proof.
  induction items as [|first items IH]; simpl; [tauto|].
  intros Hu Hin. apply andb_prop in Hu as [Hfresh Hu].
  destruct Hin as [->|Hin].
  - now rewrite String.eqb_refl.
  - destruct (String.eqb_spec (Item.id first) (Item.id item)) as [Heq|_].
    + apply negb_true_iff in Hfresh.
      assert (existsb (fun other => String.eqb (Item.id other) (Item.id first))
                      items = true) as Hex.
      { apply existsb_exists. exists item. split; [assumption|].
        rewrite Heq. apply String.eqb_refl. }
      congruence.
    + now apply IH.
Qed.

(** What [read_resource] does once the URI has two parts. *)
Lemma read_resource_parts (docs : docs_t) (uri category doc_id : string) :
  uri_parts uri = [category; doc_id] ->
  read_resource uri (with_docs docs)
  = (match dict_get docs category with
     | None => inl (CategoryNotFoundError category)
     | Some items =>
         match find_document items doc_id with
         | Some text => inr text
         | None => inl (DocumentNotFoundError category doc_id)
         end
     end, with_docs docs).
Proof.
  intros Hparts. unfold read_resource, bind, load_docs. cbn [docs_file with_docs].
  rewrite Hparts.
  destruct (dict_get docs category) as [items|]; [|reflexivity].
  destruct (find_document items doc_id); reflexivity.
Qed.

Lemma read_resource_found (docs : docs_t) (uri category doc_id : string)
      (before after : list Item.t) (item : Item.t) :
  uri_parts uri = [category; doc_id] ->
  dict_get docs category = Some (before ++ item :: after)%list ->
  Forall (fun earlier => Item.id earlier <> doc_id) before ->
  Item.id item = doc_id ->
  read_resource uri (with_docs docs) = (inr (content item), with_docs docs).
Proof.
  intros Hparts Hget Hb Hid.
  rewrite (read_resource_parts _ _ _ _ Hparts), Hget.
  now rewrite (find_document_first _ _ _ _ Hb Hid).
Qed.

Lemma read_resource_other_parts (docs : docs_t) (uri : string) :
  List.length (uri_parts uri) <> 2 ->
  read_resource uri (with_docs docs)
  = (inl (InvalidUriError uri), with_docs docs).
Proof.
  intros Hlen. unfold read_resource, bind, load_docs. cbn [docs_file with_docs].
  destruct (uri_parts uri) as [|a [|b [|c rest]]]; try reflexivity.
  now contradiction Hlen.
Qed.

Lemma content_template (item : Item.t) :
  content item = spec_template item ++ Str.nl.
Proof.
  unfold content, spec_template.
  repeat rewrite join_concat.
  assert (forall field, String.concat ", " (get_default field []) = spec_joined field)
    as Hj by (now intros [pieces|]).
  rewrite !Hj, !append_assoc.
  reflexivity.
Qed.

(** The URI reaches the result only through its parts, except in the
    message of the invalid-URI error. *)
Lemma read_resource_same_parts (docs : docs_t) (uri uri' : string) :
  uri_parts uri = uri_parts uri' ->
  List.length (uri_parts uri) = 2 ->
  read_resource uri (with_docs docs) = read_resource uri' (with_docs docs).
Proof.
  intros Heq Hlen.
  destruct (uri_parts uri) as [|category [|doc_id [|extra rest]]] eqn:Hparts;
    try discriminate.
  rewrite (read_resource_parts docs uri category doc_id Hparts).
  now rewrite (read_resource_parts docs uri' category doc_id (eq_sym Heq)).
Qed.

Lemma read_resource_success_parts (docs : docs_t) (uri text : string) :
  fst (read_resource uri (with_docs docs)) = inr text ->
  List.length (uri_parts uri) = 2.
Proof.
  intros H.
  destruct (Nat.eq_dec (List.length (uri_parts uri)) 2) as [|Hne]; [assumption|].
  rewrite (read_resource_other_parts docs uri Hne) in H. discriminate.
Qed.

Lemma find_document_in (items : list Item.t) (doc_id : string) :
  (exists found,
      In found items /\ Item.id found = doc_id
      /\ find_document items doc_id = Some (content found))
  \/ Forall (fun item => Item.id item <> doc_id) items.
Proof.
  destruct (find_document_cases items doc_id)
    as [(before & found & after & -> & _ & Hid & Hfind)|[Hall _]].
  - left. exists found. repeat split; auto.
    apply in_or_app. right. now left.
  - now right.
Qed.

(** When [DOCS_FILE] cannot be loaded, both handlers raise what
    [load_docs] raised, before looking at anything else. *)
Lemma handlers_load_failure (U : AnyUrl.interface) (uri : string) (w : world) :
  docs_file w = None ->
  list_resources U w = (inl LoadFailure, w)
  /\ read_resource uri w = (inl LoadFailure, w).
Proof.
  intros Hnone. unfold list_resources, read_resource, bind, load_docs.
  now rewrite Hnone.
Qed.

(** ** The claims *)

(** C1 (as the code has it).  [read_resource] deletes every occurrence of
    ["docs://"] from the URI and raises the invalid-URI error, carrying the
    original URI, exactly when what is left does not split on ["/"] into
    two segments.  A segment may be empty: such a URI goes on to the
    lookup. *)
Theorem read_resource_invalid_uri (docs : docs_t) (uri : string) :
  fst (read_resource uri (with_docs docs)) = inl (InvalidUriError uri)
  <-> List.length (uri_parts uri) <> 2.
Proof.
  split.
  - intros H Hlen.
    destruct (uri_parts uri) as [|category [|doc_id [|extra rest]]] eqn:Hparts;
      try discriminate.
    rewrite (read_resource_parts docs uri category doc_id Hparts) in H.
    cbn [fst] in H.
    destruct (dict_get docs category) as [items|]; [|discriminate].
    destruct (find_document items doc_id); discriminate.
  - intros Hlen. now rewrite read_resource_other_parts.
Qed.

Lemma read_resource_invalid_uri_witness :
  List.length (uri_parts "docs://onlyonesegment") <> 2
  /\ fst (read_resource "docs://onlyonesegment" (with_docs sample_docs))
     = inl (InvalidUriError "docs://onlyonesegment").
Proof.
  assert (List.length (uri_parts "docs://onlyonesegment") <> 2) as H
    by (vm_compute; lia).
  split; [exact H|].
  exact (proj2 (read_resource_invalid_uri sample_docs "docs://onlyonesegment") H).
Defined.

(** C1 (as stated) fails: with an empty category segment the specification
    asks for the invalid-URI error, and the code goes on to look the empty
    category up; and a ["docs://"] that is not a prefix is deleted all the
    same, so that a URI the specification calls malformed is served. *)
Lemma read_resource_invalid_uri_counterexample :
  (spec_malformed "docs:///x" = true
   /\ fst (read_resource "docs:///x" (with_docs sample_docs))
      = inl (CategoryNotFoundError "")
   /\ fst (read_resource "docs:///x" (with_docs sample_docs))
      <> inl (InvalidUriError "docs:///x"))
  /\ (spec_malformed "rust/docs://book" = true
      /\ fst (read_resource "rust/docs://book" (with_docs sample_docs))
         = inr (content rust_book)).
Proof.
  repeat split; try reflexivity. vm_compute. discriminate.
Qed.

(** C2 (as the code has it).  In a document whose categories and ids hold
    no ["/"] and whose ids are unique within their category, every
    descriptor [list_resources] returns was built for an entry of the
    document, and when the constructor kept its URI as it was built,
    [read_resource] on the string of that URI succeeds with a text that
    holds the descriptor's name and description. *)
Theorem read_listed_resource (U : AnyUrl.interface) (docs : docs_t)
        (resources : list (Resource.t (AnyUrl.t U)))
        (resource : Resource.t (AnyUrl.t U)) :
  addressable docs = true ->
  fst (list_resources U (with_docs docs)) = inr resources ->
  In resource resources ->
  exists category items item,
    In (category, items) docs
    /\ In item items
    /\ resource_of U category item = inr resource
    /\ (listed_uri resource = built_uri category item ->
        exists text,
          read_resource (listed_uri resource) (with_docs docs)
          = (inr text, with_docs docs)
          /\ Str.contains text (Resource.name resource)
          /\ Str.contains text (Resource.description resource)).
Proof.
  intros Hok Hlist Hin.
  unfold addressable in Hok.
  apply andb_prop in Hok as [Hok Hids]. apply andb_prop in Hok as [Hkeys Hsafe].
  apply list_resources_returned in Hlist.
  destruct (Forall2_in_l _ _ _ _ Hlist Hin) as [[category item] [Hentry Hres]].
  apply in_entries in Hentry as [items [Hcat Hitem]].
  exists category, items, item.
  split; [exact Hcat|]. split; [exact Hitem|]. split; [exact Hres|].
  intros Hkept. rewrite Hkept.
  unfold path_safe in Hsafe. rewrite forallb_forall in Hsafe, Hids.
  specialize (Hsafe _ Hcat). specialize (Hids _ Hcat). cbn in Hsafe, Hids.
  apply andb_prop in Hsafe as [Hc Hi]. rewrite forallb_forall in Hi.
  apply resource_of_inr in Hres as (_ & Hname & Hdesc & _).
  exists (content item). split.
  - unfold built_uri.
    rewrite (read_resource_parts docs _ category (Item.id item)
               (uri_parts_canonical _ _ Hc (Hi _ Hitem))).
    rewrite (dict_get_in _ _ _ Hkeys Hcat).
    now rewrite (find_document_unique _ _ Hids Hitem).
  - rewrite Hname, Hdesc. unfold content. split.
    + apply (contains_app "# ").
    + exists ("# " ++ Item.name item ++ Str.nl ++ Str.nl). eexists.
      rewrite !append_assoc. reflexivity.
Qed.

Lemma read_listed_resource_witness :
  addressable sample_docs = true
  /\ fst (list_resources percent_url (with_docs sample_docs))
     = inr [Resource.mk "docs://rust/book" "The Rust Book" "Intro" "text/plain"]
  /\ exists text,
      read_resource "docs://rust/book" (with_docs sample_docs)
      = (inr text, with_docs sample_docs)
      /\ Str.contains text "The Rust Book"
      /\ Str.contains text "Intro".
Proof.
  split; [reflexivity|]. split; [reflexivity|].
  destruct (read_listed_resource percent_url sample_docs
              [Resource.mk "docs://rust/book" "The Rust Book" "Intro" "text/plain"]
              (Resource.mk "docs://rust/book" "The Rust Book" "Intro" "text/plain")
              eq_refl eq_refl (or_introl eq_refl))
    as (category & items & item & Hcat & Hitem & Hres & Hread).
  destruct Hcat as [Hcat|[]]. injection Hcat as <- <-.
  destruct Hitem as [<-|[]].
  exact (Hread eq_refl).
Defined.

(** C2 (as stated) fails.  A category named ["a/b"] is a category string
    like any other, its entry is listed, and reading the listed URI raises
    the invalid-URI error.  And for the id ["an id"], which holds no
    ["/"], the listed URI has [%20] for the space, and reading it raises
    the document-not-found error. *)
Lemma read_listed_resource_counterexample :
  (keys_unique nested_docs = true
   /\ forallb (fun '(_, items) => ids_unique items) nested_docs = true
   /\ list_resources percent_url (with_docs nested_docs)
      = (inr [Resource.mk "docs://a/b/x" "N" "D" "text/plain"],
         with_docs nested_docs)
   /\ fst (read_resource "docs://a/b/x" (with_docs nested_docs))
      = inl (InvalidUriError "docs://a/b/x"))
  /\ (addressable spaced_id_docs = true
      /\ list_resources percent_url (with_docs spaced_id_docs)
         = (inr [Resource.mk "docs://a/an%20id" "N" "D" "text/plain"],
            with_docs spaced_id_docs)
      /\ fst (read_resource "docs://a/an%20id" (with_docs spaced_id_docs))
         = inl (DocumentNotFoundError "a" "an%20id")).
Proof. repeat split; reflexivity. Qed.

(** C3 (as the code has it).  When the constructor accepts the URI of
    every entry, [list_resources] returns one descriptor per entry,
    position by position, and their number is the sum of the numbers of
    entries of the categories.  When it refuses the URI of some entry,
    [list_resources] raises the validation error of a refused URI and
    returns nothing. *)
Theorem list_resources_count (U : AnyUrl.interface) (docs : docs_t) :
  (forallb (accepts U) (entries docs) = true ->
   exists resources,
     list_resources U (with_docs docs) = (inr resources, with_docs docs)
     /\ Forall2 (fun resource '(category, item) =>
                   resource_of U category item = inr resource)
                resources (entries docs)
     /\ List.length resources
        = list_sum (map (fun '(_, items) => List.length items) docs))
  /\ (forallb (accepts U) (entries docs) = false ->
      exists category item,
        In (category, item) (entries docs)
        /\ AnyUrl.validate U (built_uri category item) = None
        /\ list_resources U (with_docs docs)
           = (inl (ValidationError (built_uri category item)), with_docs docs)).
Proof.
  pose proof (list_resources_result U docs) as Hres.
  pose proof (list_resources_returns_iff U docs) as Hiff.
  destruct (fst (list_resources U (with_docs docs))) as [e|resources] eqn:Hlist.
  - split; intros Hall.
    + apply Hiff in Hall as [resources H]. discriminate H.
    + destruct (list_resources_raised _ _ _ Hlist)
        as (category & item & Hin & Hnone & ->).
      exists category, item. split; [exact Hin|]. split; [exact Hnone|].
      rewrite Hres in Hlist |- *. cbn [fst] in Hlist. now rewrite Hlist.
  - split; intros Hall.
    + exists resources.
      pose proof (list_resources_returned _ _ _ Hlist) as Hall2.
      split; [|split; [exact Hall2|]].
      * rewrite Hres in Hlist |- *. cbn [fst] in Hlist. now rewrite Hlist.
      * rewrite (Forall2_length Hall2). apply entries_length.
    + assert (forallb (accepts U) (entries docs) = true) as Htrue
        by (apply Hiff; now exists resources).
      congruence.
Qed.

Lemma list_resources_count_witness :
  forallb (accepts percent_url) (entries two_docs) = true
  /\ forallb (accepts percent_url) (entries spaced_category_docs) = false
  /\ (exists resources,
         list_resources percent_url (with_docs two_docs)
         = (inr resources, with_docs two_docs)
         /\ List.length resources = 3)
  /\ exists category item,
      In (category, item) (entries spaced_category_docs)
      /\ list_resources percent_url (with_docs spaced_category_docs)
         = (inl (ValidationError (built_uri category item)),
            with_docs spaced_category_docs).
Proof.
  split; [reflexivity|]. split; [reflexivity|]. split.
  - destruct (proj1 (list_resources_count percent_url two_docs) eq_refl)
      as (resources & Hlist & _ & Hlen).
    exists resources. split; [exact Hlist | exact Hlen].
  - destruct (proj2 (list_resources_count percent_url spaced_category_docs) eq_refl)
      as (category & item & Hin & _ & Hlist).
    exists category, item. split; [exact Hin | exact Hlist].
Defined.

(** C3 (as stated) fails: the category ["my cat"] is a category string like
    any other, the constructor refuses the URI built for its entry, and
    [list_resources] raises instead of returning a descriptor. *)
Lemma list_resources_count_counterexample :
  keys_unique spaced_category_docs = true
  /\ list_sum (map (fun '(_, items) => List.length items) spaced_category_docs) = 1
  /\ list_resources percent_url (with_docs spaced_category_docs)
     = (inl (ValidationError "docs://my cat/x"), with_docs spaced_category_docs).
Proof. repeat split; reflexivity. Qed.

(** C4 (as the code has it).  [list_resources] returns exactly when the
    constructor accepts every URI, and then the descriptors come in the
    order of the document, category by category and entry by entry, the
    descriptor of entry [item] of category [category] holding the URL the
    constructor made of ["docs://" + category + "/" + id], the entry's
    name and description and the MIME type ["text/plain"]. *)
Theorem list_resources_descriptors (U : AnyUrl.interface) (docs : docs_t) :
  (forallb (accepts U) (entries docs) = true ->
   exists resources, fst (list_resources U (with_docs docs)) = inr resources)
  /\ forall resources,
      fst (list_resources U (with_docs docs)) = inr resources ->
      Forall2 (fun resource '(category, item) =>
                 AnyUrl.validate U ("docs://" ++ category ++ "/" ++ Item.id item)
                 = Some (Resource.uri resource)
                 /\ Resource.name resource = Item.name item
                 /\ Resource.description resource = Item.description item
                 /\ Resource.mimeType resource = "text/plain")
              resources (entries docs).
Proof.
  split.
  - apply list_resources_returns_iff.
  - intros resources Hlist. apply list_resources_returned in Hlist.
    induction Hlist as [|resource [category item] resources rest Hres _ IH];
      constructor; [|exact IH].
    now apply resource_of_inr in Hres.
Qed.

Lemma list_resources_descriptors_witness :
  forallb (accepts percent_url) (entries spaced_id_docs) = true
  /\ exists resources,
      fst (list_resources percent_url (with_docs spaced_id_docs)) = inr resources
      /\ Forall2 (fun resource '(category, item) =>
                    AnyUrl.validate percent_url
                      ("docs://" ++ category ++ "/" ++ Item.id item)
                    = Some (Resource.uri resource)
                    /\ Resource.name resource = Item.name item
                    /\ Resource.description resource = Item.description item
                    /\ Resource.mimeType resource = "text/plain")
                 resources (entries spaced_id_docs).
Proof.
  split; [reflexivity|].
  destruct (list_resources_descriptors percent_url spaced_id_docs)
    as [Hreturns Hfields].
  destruct (Hreturns eq_refl) as [resources Hlist].
  exists resources. split; [exact Hlist | exact (Hfields resources Hlist)].
Defined.

(** C4 (as stated) fails: the URI listed for the id ["an id"] is the URL the
    constructor made, with [%20] for the space, and not the string
    ["docs://" + category + "/" + id]. *)
Lemma list_resources_descriptors_counterexample :
  list_resources percent_url (with_docs spaced_id_docs)
  = (inr [Resource.mk "docs://a/an%20id" "N" "D" "text/plain"],
     with_docs spaced_id_docs)
  /\ entries spaced_id_docs = [("a", bare "an id")]
  /\ "docs://a/an%20id" <> "docs://" ++ "a" ++ "/" ++ Item.id (bare "an id").
Proof. repeat split; try reflexivity. discriminate. Qed.

(** C5 (as the code has it).  For the entry [read_resource] matches, the
    text returned is the template of the specification followed by one
    more newline; with empty or absent tags and related topics both
    headers are still there, each followed by an empty line. *)
Theorem read_resource_content_template
        (docs : docs_t) (uri category doc_id : string)
        (before after : list Item.t) (item : Item.t) :
  uri_parts uri = [category; doc_id] ->
  dict_get docs category = Some (before ++ item :: after)%list ->
  Forall (fun earlier => Item.id earlier <> doc_id) before ->
  Item.id item = doc_id ->
  read_resource uri (with_docs docs)
  = (inr (spec_template item ++ Str.nl), with_docs docs)
  /\ (get_default (Item.tags item) [] = [] ->
      get_default (Item.related item) [] = [] ->
      spec_template item ++ Str.nl
      = "# " ++ Item.name item ++ Str.nl ++ Str.nl
        ++ Item.description item ++ Str.nl ++ Str.nl
        ++ "## Documentation URL" ++ Str.nl ++ Item.url item ++ Str.nl ++ Str.nl
        ++ "## Tags" ++ Str.nl ++ Str.nl ++ Str.nl
        ++ "## Related Topics" ++ Str.nl ++ Str.nl).
Proof.
  intros Hparts Hget Hb Hid. split.
  - rewrite <- content_template.
    exact (read_resource_found _ _ _ _ _ _ _ Hparts Hget Hb Hid).
  - intros Ht Hr. unfold spec_template.
    assert (forall field, get_default field [] = [] -> spec_joined field = "")
      as Hempty.
    { intros [pieces|] H; [|reflexivity]. cbn in H. now subst. }
    rewrite (Hempty _ Ht), (Hempty _ Hr), !append_assoc. reflexivity.
Qed.

Lemma read_resource_content_template_witness :
  uri_parts "docs://c/other" = ["c"; "other"]
  /\ dict_get dup_docs "c" = Some ([] ++ bare "other" :: [first_dup; second_dup])%list
  /\ read_resource "docs://c/other" (with_docs dup_docs)
     = (inr (spec_template (bare "other") ++ Str.nl), with_docs dup_docs).
Proof.
  split; [reflexivity|]. split; [reflexivity|].
  apply (read_resource_content_template dup_docs "docs://c/other" "c" "other"
           [] [first_dup; second_dup] (bare "other")).
  - reflexivity.
  - reflexivity.
  - constructor.
  - reflexivity.
Defined.

(** C5 (as stated) fails: the text the code returns is one newline longer
    than the template of the specification. *)
Lemma read_resource_content_template_counterexample :
  fst (read_resource "docs://rust/book" (with_docs sample_docs))
  = inr (spec_template rust_book ++ Str.nl)
  /\ fst (read_resource "docs://rust/book" (with_docs sample_docs))
     <> inr (spec_template rust_book).
Proof.
  split; [reflexivity|]. vm_compute. discriminate.
Qed.

(** C6.  When the URI parses into a category and an id and the category is
    not a key of the loaded document, [read_resource] raises the
    category-not-found error naming that category. *)
Theorem read_resource_category_not_found
        (docs : docs_t) (uri category doc_id : string) :
  uri_parts uri = [category; doc_id] ->
  dict_get docs category = None ->
  read_resource uri (with_docs docs)
  = (inl (CategoryNotFoundError category), with_docs docs).
Proof.
  intros Hparts Hget.
  now rewrite (read_resource_parts _ _ _ _ Hparts), Hget.
Qed.

Lemma read_resource_category_not_found_witness :
  uri_parts "docs://nope/x" = ["nope"; "x"]
  /\ dict_get sample_docs "nope" = None
  /\ read_resource "docs://nope/x" (with_docs sample_docs)
     = (inl (CategoryNotFoundError "nope"), with_docs sample_docs).
Proof.
  split; [reflexivity|]. split; [reflexivity|].
  apply (read_resource_category_not_found sample_docs "docs://nope/x" "nope" "x");
    reflexivity.
Defined.

(** C7.  When the category is a key of the document, [read_resource] scans
    its entries in order: either some entry is the first whose id is the
    requested one and its content is returned, or no entry has that id and
    the document-not-found error carries the category and the id. *)
Theorem read_resource_first_match_or_not_found
        (docs : docs_t) (uri category doc_id : string) (items : list Item.t) :
  uri_parts uri = [category; doc_id] ->
  dict_get docs category = Some items ->
  (exists before item after,
      items = (before ++ item :: after)%list
      /\ Forall (fun earlier => Item.id earlier <> doc_id) before
      /\ Item.id item = doc_id
      /\ read_resource uri (with_docs docs)
         = (inr (content item), with_docs docs))
  \/ (Forall (fun item => Item.id item <> doc_id) items
      /\ read_resource uri (with_docs docs)
         = (inl (DocumentNotFoundError category doc_id), with_docs docs)).
Proof.
  intros Hparts Hget.
  rewrite (read_resource_parts _ _ _ _ Hparts), Hget.
  destruct (find_document_cases items doc_id)
    as [(before & item & after & Hsplit & Hb & Hid & Hfind)|[Hall Hfind]];
    rewrite Hfind.
  - left. now exists before, item, after.
  - right. now split.
Qed.

Lemma read_resource_first_match_or_not_found_witness :
  uri_parts "docs://rust/does-not-exist" = ["rust"; "does-not-exist"]
  /\ dict_get sample_docs "rust" = Some [rust_book]
  /\ read_resource "docs://rust/does-not-exist" (with_docs sample_docs)
     = (inl (DocumentNotFoundError "rust" "does-not-exist"),
        with_docs sample_docs).
Proof.
  split; [reflexivity|]. split; [reflexivity|].
  destruct (read_resource_first_match_or_not_found
              sample_docs "docs://rust/does-not-exist" "rust" "does-not-exist"
              [rust_book] eq_refl eq_refl)
    as [(before & item & after & _ & _ & _ & Hread)|[_ Hread]];
    [|exact Hread].
  vm_compute in Hread. discriminate Hread.
Defined.

(** C9 (as the code has it).  Every occurrence of ["docs://"] is deleted,
    wherever it stands.  The URI without the scheme resolves to the text
    the canonical URI resolves to; and when neither the category nor the
    id holds a ["/"], every string that becomes [category + "/" + id] once
    the occurrences are deleted gives the result of the canonical URI,
    which is the content of an entry when the pair is in the index. *)
Theorem read_resource_scheme_deleted
        (docs : docs_t) (category : string) (items : list Item.t)
        (item : Item.t) :
  dict_get docs category = Some items ->
  In item items ->
  (forall text,
      fst (read_resource ("docs://" ++ category ++ "/" ++ Item.id item)
                         (with_docs docs)) = inr text ->
      fst (read_resource (category ++ "/" ++ Item.id item) (with_docs docs))
      = inr text)
  /\ (Str.slash_free category = true ->
      Str.slash_free (Item.id item) = true ->
      forall uri,
        Str.replace "docs://" "" uri = category ++ "/" ++ Item.id item ->
        exists found,
          In found items
          /\ Item.id found = Item.id item
          /\ read_resource uri (with_docs docs)
             = (inr (content found), with_docs docs)
          /\ read_resource ("docs://" ++ category ++ "/" ++ Item.id item)
                           (with_docs docs)
             = (inr (content found), with_docs docs)).
Proof.
  intros Hget Hin. split.
  - intros text Hread.
    pose proof (read_resource_success_parts _ _ _ Hread) as Hlen.
    rewrite <- Hread. f_equal. symmetry.
    apply read_resource_same_parts; [|exact Hlen].
    apply uri_parts_scheme.
  - intros Hc Hi uri Hdel.
    assert (uri_parts uri = [category; Item.id item]) as Hparts.
    { unfold uri_parts. rewrite Hdel. now apply split_pair. }
    destruct (find_document_in items (Item.id item))
      as [(found & Hfound & Hid & Hfind)|Hall].
    + exists found. repeat split; auto.
      * rewrite (read_resource_parts _ _ _ _ Hparts), Hget. now rewrite Hfind.
      * rewrite (read_resource_parts _ _ _ _ (uri_parts_canonical _ _ Hc Hi)), Hget.
        now rewrite Hfind.
    + rewrite Forall_forall in Hall. now destruct (Hall item Hin).
Qed.

Lemma read_resource_scheme_deleted_witness :
  dict_get sample_docs "rust" = Some [rust_book]
  /\ In rust_book [rust_book]
  /\ Str.slash_free "rust" = true
  /\ Str.slash_free (Item.id rust_book) = true
  /\ Str.replace "docs://" "" "docs://rust/docs://book" = "rust/book"
  /\ fst (read_resource "rust/book" (with_docs sample_docs))
     = inr (content rust_book)
  /\ exists found,
      In found [rust_book]
      /\ Item.id found = "book"
      /\ read_resource "docs://rust/docs://book" (with_docs sample_docs)
         = (inr (content found), with_docs sample_docs)
      /\ read_resource "docs://rust/book" (with_docs sample_docs)
         = (inr (content found), with_docs sample_docs).
Proof.
  destruct (read_resource_scheme_deleted
              sample_docs "rust" [rust_book] rust_book
              eq_refl (or_introl eq_refl)) as [Hschemeless Hdeleted].
  split; [reflexivity|]. split; [simpl; auto|].
  split; [reflexivity|]. split; [reflexivity|]. split; [reflexivity|].
  split.
  - exact (Hschemeless (content rust_book) eq_refl).
  - exact (Hdeleted eq_refl eq_refl "docs://rust/docs://book" eq_refl).
Defined.

(** C9 (as stated) fails for an id that holds ["/"]: with the id
    ["docs://x"] in category ["a"], the string ["a/docdocs://s://x"] becomes
    ["a" + "/" + "docs://x"] when its one occurrence is deleted, and is
    refused as invalid, while the canonical URI loses two occurrences and
    is served. *)
Lemma read_resource_scheme_deleted_counterexample :
  dict_get scheme_docs "a" = Some [bare "docs://x"; bare "x"]
  /\ Str.replace "docs://" "" "a/docdocs://s://x" = "a" ++ "/" ++ "docs://x"
  /\ fst (read_resource ("docs://" ++ "a" ++ "/" ++ "docs://x")
                        (with_docs scheme_docs))
     = inr (content (bare "docs://x"))
  /\ fst (read_resource "a/docdocs://s://x" (with_docs scheme_docs))
     = inl (InvalidUriError "a/docdocs://s://x").
Proof. repeat split; reflexivity. Qed.

(** C10.  When the first entry of the category whose id is the requested
    one is [item], [read_resource] succeeds with the content of [item]
    whatever the entries after it are, entries with the same id
    included. *)
Theorem read_resource_duplicate_ids
        (docs : docs_t) (uri category doc_id : string)
        (before after : list Item.t) (item : Item.t) :
  uri_parts uri = [category; doc_id] ->
  dict_get docs category = Some (before ++ item :: after)%list ->
  Forall (fun earlier => Item.id earlier <> doc_id) before ->
  Item.id item = doc_id ->
  read_resource uri (with_docs docs) = (inr (content item), with_docs docs)
  /\ forall docs' after',
      dict_get docs' category = Some (before ++ item :: after')%list ->
      fst (read_resource uri (with_docs docs'))
      = fst (read_resource uri (with_docs docs)).
Proof.
  intros Hparts Hget Hb Hid.
  pose proof (read_resource_found _ _ _ _ _ _ _ Hparts Hget Hb Hid) as Hread.
  split; [exact Hread|].
  intros docs' after' Hget'.
  now rewrite Hread, (read_resource_found _ _ _ _ _ _ _ Hparts Hget' Hb Hid).
Qed.

Lemma read_resource_duplicate_ids_witness :
  uri_parts "docs://c/dup" = ["c"; "dup"]
  /\ dict_get dup_docs "c" = Some ([bare "other"] ++ first_dup :: [second_dup])%list
  /\ Item.id second_dup = Item.id first_dup
  /\ read_resource "docs://c/dup" (with_docs dup_docs)
     = (inr (content first_dup), with_docs dup_docs).
Proof.
  split; [reflexivity|]. split; [reflexivity|]. split; [reflexivity|].
  apply (read_resource_duplicate_ids dup_docs "docs://c/dup" "c" "dup"
           [bare "other"] [second_dup] first_dup).
  - reflexivity.
  - reflexivity.
  - constructor; [discriminate | constructor].
  - reflexivity.
Defined.

(** ** Further properties of the handlers *)

Lemma append_nil_r (s : string) : s ++ "" = s.
Proof. induction s as [|c s IH]; simpl; [reflexivity | now rewrite IH]. Qed.

Lemma append_inj_l (p a b : string) : p ++ a = p ++ b -> a = b.
Proof.
  induction p as [|c p IH]; simpl; intros H; [exact H|].
  injection H as H. now apply IH.
Qed.

Lemma split_length_count (sep : ascii) (s : string) :
  List.length (Str.split sep s) = S (str_count sep s).
Proof.
  induction s as [|c s IH]; simpl; [reflexivity|].
  destruct (Ascii.eqb c sep); simpl; [now rewrite IH|].
  destruct (Str.split sep s); simpl in *; congruence.
Qed.

Lemma dict_get_some_in {V : Type} (d : list (string * V)) (key : string) (v : V) :
  dict_get d key = Some v -> In (key, v) d.
Proof.
  induction d as [|[k v'] d IH]; simpl; [discriminate|].
  destruct (String.eqb_spec k key) as [->|_].
  - intros H. injection H as ->. now left.
  - intros H. right. now apply IH.
Qed.

Lemma dict_get_none_not_in {V : Type} (d : list (string * V)) (key : string) (v : V) :
  dict_get d key = None -> ~ In (key, v) d.
Proof.
  induction d as [|[k v'] d IH]; simpl; [tauto|].
  destruct (String.eqb_spec k key) as [->|Hne]; [discriminate|].
  intros H [Heq|Hin]; [injection Heq as -> _; congruence | now apply IH].
Qed.

Lemma ids_unique_NoDup (items : list Item.t) :
  ids_unique items = true -> NoDup (map Item.id items).
Proof.
  induction items as [|item items IH]; simpl; intros H; [constructor|].
  apply andb_prop in H as [Hfresh Hu]. constructor; [|now apply IH].
  intros Hin. apply in_map_iff in Hin as [other [Heq Hother]].
  apply negb_true_iff in Hfresh.
  assert (existsb (fun other => String.eqb (Item.id other) (Item.id item)) items
          = true) as Hex.
  { apply existsb_exists. exists other. split; [assumption|].
    now apply String.eqb_eq. }
  congruence.
Qed.

Lemma contains_context (x y s sub : string) :
  Str.contains s sub -> Str.contains (x ++ s ++ y) sub.
Proof.
  intros [before [after ->]]. exists (x ++ before), (after ++ y).
  now rewrite !append_assoc.
Qed.

Lemma contains_refl (s : string) : Str.contains s s.
Proof. exists "", "". simpl. now rewrite append_nil_r. Qed.

Lemma join_contains (sep piece : string) (pieces : list string) :
  In piece pieces -> Str.contains (Str.join sep pieces) piece.
Proof.
  induction pieces as [|first rest IH]; [intros []|].
  intros Hin. destruct rest as [|second rest].
  - destruct Hin as [->|[]]. apply contains_refl.
  - cbn [Str.join]. destruct Hin as [->|Hin].
    + exists "", (sep ++ Str.join sep (second :: rest)). reflexivity.
    + apply (contains_context (first ++ sep) "") in IH; [|exact Hin].
      now rewrite append_nil_r, append_assoc in IH.
Qed.

Lemma read_resource_not_invalid (docs : docs_t) (uri : string) :
  List.length (uri_parts uri) = 2 ->
  fst (read_resource uri (with_docs docs)) <> inl (InvalidUriError uri).
Proof.
  intros Hlen.
  destruct (uri_parts uri) as [|category [|doc_id [|extra rest]]] eqn:Hparts;
    try discriminate.
  rewrite (read_resource_parts docs uri category doc_id Hparts). cbn [fst].
  destruct (dict_get docs category) as [items|]; [|discriminate].
  destruct (find_document items doc_id); discriminate.
Qed.

Lemma find_document_some_inv (items : list Item.t) (doc_id text : string) :
  find_document items doc_id = Some text ->
  exists item,
    In item items /\ Item.id item = doc_id /\ text = content item.
Proof.
  induction items as [|first items IH]; simpl; [discriminate|].
  destruct (String.eqb_spec (Item.id first) doc_id) as [Heq|_].
  - intros H. injection H as <-. exists first. auto.
  - intros H. destruct (IH H) as (item & Hin & Hid & Htext).
    exists item. auto.
Qed.

Lemma find_document_none_inv (items : list Item.t) (doc_id : string) :
  find_document items doc_id = None <->
  Forall (fun item => Item.id item <> doc_id) items.
Proof.
  induction items as [|first items IH]; simpl.
  - split; [constructor | reflexivity].
  - destruct (String.eqb_spec (Item.id first) doc_id) as [Heq|Hne].
    + split; [discriminate|]. intros H. inversion H. contradiction.
    + rewrite IH. split; [now constructor|]. intros H. now inversion H.
Qed.

Lemma read_resource_success_inv (docs : docs_t) (uri text : string) :
  fst (read_resource uri (with_docs docs)) = inr text ->
  exists category items item,
    uri_parts uri = [category; Item.id item]
    /\ dict_get docs category = Some items
    /\ In item items
    /\ text = content item.
Proof.
  intros Hread.
  pose proof (read_resource_success_parts _ _ _ Hread) as Hlen.
  destruct (uri_parts uri) as [|category [|doc_id [|extra rest]]] eqn:Hparts;
    try discriminate.
  rewrite (read_resource_parts docs uri category doc_id Hparts) in Hread.
  cbn [fst] in Hread.
  destruct (dict_get docs category) as [items|] eqn:Hget; [|discriminate].
  destruct (find_document items doc_id) as [found|] eqn:Hfind; [|discriminate].
  injection Hread as <-.
  destruct (find_document_some_inv _ _ _ Hfind) as (item & Hin & Hid & Htext).
  exists category, items, item. now rewrite Hid.
Qed.

Lemma NoDup_map_injective {A B : Type} (f : A -> B) (l : list A) :
  (forall a b, f a = f b -> a = b) -> NoDup l -> NoDup (map f l).
Proof.
  intros Hinj Hl. induction Hl as [|a l Hnotin _ IH]; simpl; constructor; auto.
  intros Hin. apply in_map_iff in Hin as [b [Heq Hb]].
  apply Hinj in Heq. now subst.
Qed.

(** X1.  Both handlers load the document before anything else: each raises
    the load failure exactly when [DOCS_FILE] cannot be loaded, whatever
    the URI, and then nothing about the URI is reported. *)
Theorem load_failure_iff (U : AnyUrl.interface) (uri : string) (w : world) :
  (fst (list_resources U w) = inl LoadFailure <-> docs_file w = None)
  /\ (fst (read_resource uri w) = inl LoadFailure <-> docs_file w = None).
Proof.
  destruct w as [[docs|]].
  - change (mkWorld (Some docs)) with (with_docs docs).
    cbn [docs_file with_docs]. split; split; intros H; try discriminate H.
    + apply list_resources_raised in H as (category & item & _ & _ & H).
      discriminate H.
    + destruct (Nat.eq_dec (List.length (uri_parts uri)) 2) as [Hlen|Hlen].
      * destruct (uri_parts uri) as [|category [|doc_id [|extra rest]]] eqn:Hparts;
          try discriminate Hlen.
        rewrite (read_resource_parts docs uri category doc_id Hparts) in H.
        cbn [fst] in H.
        destruct (dict_get docs category) as [items|]; [|discriminate H].
        destruct (find_document items doc_id); discriminate H.
      * rewrite (read_resource_other_parts docs uri Hlen) in H. discriminate H.
  - split; split; reflexivity.
Qed.

Lemma load_failure_iff_witness :
  docs_file no_docs = None
  /\ fst (list_resources percent_url no_docs) = inl LoadFailure
  /\ fst (read_resource "not a uri" no_docs) = inl LoadFailure.
Proof.
  split; [reflexivity|].
  destruct (load_failure_iff percent_url "not a uri" no_docs) as [Hlist Hread].
  split; [exact (proj2 Hlist eq_refl) | exact (proj2 Hread eq_refl)].
Defined.

(** X2.  In a document whose categories and ids hold no ["/"] and whose
    ids are unique within their category, the URI strings that
    [list_resources] builds and hands to the constructor are pairwise
    distinct. *)
Theorem built_uris_distinct (docs : docs_t) :
  addressable docs = true ->
  NoDup (map (fun '(category, item) => built_uri category item) (entries docs)).
Proof.
  intros Hok. unfold addressable in Hok.
  apply andb_prop in Hok as [Hok Hids]. apply andb_prop in Hok as [Hkeys Hsafe].
  unfold entries, path_safe in *.
  induction docs as [|[category items] docs IH]; [constructor|].
  cbn [flat_map]. rewrite !map_app.
  cbn [keys_unique] in Hkeys.
  destruct (dict_get docs category) eqn:Hfresh; [discriminate|].
  cbn [forallb] in Hsafe, Hids.
  apply andb_prop in Hsafe as [Hhere Hsafe]. apply andb_prop in Hids as [Hu Hids].
  apply andb_prop in Hhere as [Hc Hi]. rewrite forallb_forall in Hi.
  apply NoDup_app.
  - rewrite !map_map. unfold built_uri.
    rewrite <- (map_map Item.id
                  (fun doc_id => "docs://" ++ category ++ "/" ++ doc_id)).
    apply NoDup_map_injective; [|now apply ids_unique_NoDup].
    intros a b Hab.
    apply (append_inj_l "docs://") in Hab.
    apply (append_inj_l category) in Hab.
    now apply (append_inj_l "/") in Hab.
  - now apply IH.
  - intros u Hfirst Hrest.
    rewrite !map_map in Hfirst.
    apply in_map_iff in Hfirst as [item [<- Hitem]].
    apply in_map_iff in Hrest as [[category' item'] [Huri Hentry]].
    apply (in_entries docs) in Hentry as [items' [Hcat' Hitem']].
    rewrite forallb_forall in Hsafe. specialize (Hsafe _ Hcat'). cbn in Hsafe.
    apply andb_prop in Hsafe as [Hc' Hi']. rewrite forallb_forall in Hi'.
    apply (f_equal uri_parts) in Huri. unfold built_uri in Huri.
    rewrite (uri_parts_canonical _ _ Hc' (Hi' _ Hitem')) in Huri.
    rewrite (uri_parts_canonical _ _ Hc (Hi _ Hitem)) in Huri.
    injection Huri as -> _.
    exact (dict_get_none_not_in _ _ _ Hfresh Hcat').
Qed.

Lemma built_uris_distinct_witness :
  addressable two_docs = true
  /\ NoDup ["docs://rust/book"; "docs://go/tour"; "docs://go/spec"].
Proof.
  split; [reflexivity|].
  exact (built_uris_distinct two_docs eq_refl).
Defined.

(** X3.  Parsing inverts building: in a document whose categories and ids
    hold no ["/"], the URI string [list_resources] builds for an entry is
    parsed by [read_resource] back into that entry's category and id. *)
Theorem built_uri_round_trip (docs : docs_t) (category : string)
        (items : list Item.t) (item : Item.t) :
  path_safe docs = true ->
  In (category, items) docs ->
  In item items ->
  uri_parts (built_uri category item) = [category; Item.id item].
Proof.
  intros Hsafe Hcat Hitem.
  unfold path_safe in Hsafe. rewrite forallb_forall in Hsafe.
  specialize (Hsafe _ Hcat). cbn in Hsafe.
  apply andb_prop in Hsafe as [Hc Hi]. rewrite forallb_forall in Hi.
  exact (uri_parts_canonical _ _ Hc (Hi _ Hitem)).
Qed.

Lemma built_uri_round_trip_witness :
  path_safe two_docs = true
  /\ In ("go", [bare "tour"; bare "spec"]) two_docs
  /\ In (bare "spec") [bare "tour"; bare "spec"]
  /\ uri_parts "docs://go/spec" = ["go"; "spec"].
Proof.
  split; [reflexivity|]. split; [simpl; auto|]. split; [simpl; auto|].
  apply (built_uri_round_trip two_docs "go" [bare "tour"; bare "spec"]
           (bare "spec")).
  - reflexivity.
  - simpl. auto.
  - simpl. auto.
Defined.

(** X4.  Whether a URI is refused as invalid is a matter of counting: the
    invalid-URI error is raised exactly when what is left of the URI, once
    the occurrences of ["docs://"] are deleted, does not hold exactly one
    ["/"]. *)
Theorem invalid_uri_slash_count (docs : docs_t) (uri : string) :
  fst (read_resource uri (with_docs docs)) = inl (InvalidUriError uri)
  <-> str_count "/" (Str.replace "docs://" "" uri) <> 1.
Proof.
  assert (List.length (uri_parts uri)
          = S (str_count "/" (Str.replace "docs://" "" uri))) as Hcount
    by apply split_length_count.
  split.
  - intros H Hone.
    apply (read_resource_not_invalid docs uri); [lia | exact H].
  - intros Hne. rewrite read_resource_other_parts; [reflexivity | lia].
Qed.

Lemma invalid_uri_slash_count_witness :
  str_count "/" (Str.replace "docs://" "" "docs://a/b/c") <> 1
  /\ fst (read_resource "docs://a/b/c" (with_docs sample_docs))
     = inl (InvalidUriError "docs://a/b/c").
Proof.
  assert (str_count "/" (Str.replace "docs://" "" "docs://a/b/c") <> 1) as H
    by (vm_compute; lia).
  split; [exact H|].
  exact (proj2 (invalid_uri_slash_count sample_docs "docs://a/b/c") H).
Defined.

(** X6.  [read_resource] succeeds exactly when the URI has two parts, the
    first is a category of the document and some entry of that category
    has the second as its id. *)
Theorem read_resource_succeeds_iff (docs : docs_t) (uri : string) :
  (exists text, fst (read_resource uri (with_docs docs)) = inr text)
  <-> exists category doc_id items item,
      uri_parts uri = [category; doc_id]
      /\ dict_get docs category = Some items
      /\ In item items
      /\ Item.id item = doc_id.
Proof.
  split.
  - intros [text Hread].
    destruct (read_resource_success_inv _ _ _ Hread)
      as (category & items & item & Hparts & Hget & Hin & _).
    now exists category, (Item.id item), items, item.
  - intros (category & doc_id & items & item & Hparts & Hget & Hin & Hid).
    rewrite (read_resource_parts _ _ _ _ Hparts), Hget. cbn [fst].
    destruct (find_document items doc_id) as [text|] eqn:Hfind.
    + now exists text.
    + apply find_document_none_inv in Hfind. rewrite Forall_forall in Hfind.
      now destruct (Hfind item Hin).
Qed.

Lemma read_resource_succeeds_iff_witness :
  (exists category doc_id items item,
      uri_parts "docs://go/tour" = [category; doc_id]
      /\ dict_get two_docs category = Some items
      /\ In item items
      /\ Item.id item = doc_id)
  /\ exists text, fst (read_resource "docs://go/tour" (with_docs two_docs)) = inr text.
Proof.
  assert (exists category doc_id items item,
             uri_parts "docs://go/tour" = [category; doc_id]
             /\ dict_get two_docs category = Some items
             /\ In item items
             /\ Item.id item = doc_id) as H.
  { exists "go", "tour", [bare "tour"; bare "spec"], (bare "tour").
    split; [reflexivity|]. split; [reflexivity|].
    split; [now left | reflexivity]. }
  split; [exact H|].
  exact (proj2 (read_resource_succeeds_iff two_docs "docs://go/tour") H).
Defined.

(** X7.  The category-not-found error names the category that was asked
    for: it is raised with [category] exactly when the URI has two parts,
    the first is [category], and [category] is not a key of the
    document. *)
Theorem category_not_found_iff (docs : docs_t) (uri category : string) :
  fst (read_resource uri (with_docs docs)) = inl (CategoryNotFoundError category)
  <-> exists doc_id,
      uri_parts uri = [category; doc_id] /\ dict_get docs category = None.
Proof.
  split.
  - intros H.
    destruct (Nat.eq_dec (List.length (uri_parts uri)) 2) as [Hlen|Hlen].
    + destruct (uri_parts uri) as [|asked [|doc_id [|extra rest]]] eqn:Hparts;
        try discriminate Hlen.
      rewrite (read_resource_parts docs uri asked doc_id Hparts) in H.
      cbn [fst] in H.
      destruct (dict_get docs asked) as [items|] eqn:Hget.
      * destruct (find_document items doc_id); discriminate H.
      * unfold CategoryNotFoundError in H. injection H as H. subst asked.
        now exists doc_id.
    + rewrite (read_resource_other_parts docs uri Hlen) in H. discriminate H.
  - intros (doc_id & Hparts & Hget).
    now rewrite (read_resource_parts _ _ _ _ Hparts), Hget.
Qed.

Lemma category_not_found_iff_witness :
  (exists doc_id,
      uri_parts "docs://python/x" = ["python"; doc_id]
      /\ dict_get two_docs "python" = None)
  /\ fst (read_resource "docs://python/x" (with_docs two_docs))
     = inl (CategoryNotFoundError "python").
Proof.
  assert (exists doc_id,
             uri_parts "docs://python/x" = ["python"; doc_id]
             /\ dict_get two_docs "python" = None) as H
    by (exists "x"; split; reflexivity).
  split; [exact H|].
  exact (proj2 (category_not_found_iff two_docs "docs://python/x" "python") H).
Defined.

(** X8.  The document-not-found error is raised only after the category
    was found: some such error is the result exactly when the URI has two
    parts, the first is a category of the document, and no entry of that
    category has the second as its id. *)
Theorem document_not_found_iff (docs : docs_t) (uri : string) :
  (exists category doc_id,
      fst (read_resource uri (with_docs docs))
      = inl (DocumentNotFoundError category doc_id))
  <-> exists category doc_id items,
      uri_parts uri = [category; doc_id]
      /\ dict_get docs category = Some items
      /\ Forall (fun item => Item.id item <> doc_id) items.
Proof.
  split.
  - intros (category & doc_id & H).
    destruct (Nat.eq_dec (List.length (uri_parts uri)) 2) as [Hlen|Hlen].
    + destruct (uri_parts uri) as [|asked [|asked_id [|extra rest]]] eqn:Hparts;
        try discriminate Hlen.
      rewrite (read_resource_parts docs uri asked asked_id Hparts) in H.
      cbn [fst] in H.
      destruct (dict_get docs asked) as [items|] eqn:Hget; [|discriminate H].
      destruct (find_document items asked_id) eqn:Hfind; [discriminate H|].
      exists asked, asked_id, items. repeat split; auto.
      now apply find_document_none_inv.
    + rewrite (read_resource_other_parts docs uri Hlen) in H. discriminate H.
  - intros (category & doc_id & items & Hparts & Hget & Hall).
    exists category, doc_id.
    rewrite (read_resource_parts _ _ _ _ Hparts), Hget.
    apply find_document_none_inv in Hall. now rewrite Hall.
Qed.

Lemma document_not_found_iff_witness :
  (exists category doc_id items,
      uri_parts "docs://go/faq" = [category; doc_id]
      /\ dict_get two_docs category = Some items
      /\ Forall (fun item => Item.id item <> doc_id) items)
  /\ exists category doc_id,
      fst (read_resource "docs://go/faq" (with_docs two_docs))
      = inl (DocumentNotFoundError category doc_id).
Proof.
  assert (exists category doc_id items,
             uri_parts "docs://go/faq" = [category; doc_id]
             /\ dict_get two_docs category = Some items
             /\ Forall (fun item => Item.id item <> doc_id) items) as H.
  { exists "go", "faq", [bare "tour"; bare "spec"].
    split; [reflexivity|]. split; [reflexivity|].
    repeat constructor; discriminate. }
  split; [exact H|].
  exact (proj2 (document_not_found_iff two_docs "docs://go/faq") H).
Defined.

(** X9.  The text served is the content of the entry the URI names and
    shows all of it but the id: the entry stands in the category named by
    the first part of the URI, has the id named by the second, and the
    text, which is its content, holds its url, each of its tags and each
    of its related topics. *)
Theorem served_text_mentions (docs : docs_t) (uri text : string) :
  fst (read_resource uri (with_docs docs)) = inr text ->
  exists category items item,
    uri_parts uri = [category; Item.id item]
    /\ dict_get docs category = Some items
    /\ In item items
    /\ text = content item
    /\ Str.contains text (Item.url item)
    /\ (forall tag, In tag (get_default (Item.tags item) []) ->
                    Str.contains text tag)
    /\ (forall topic, In topic (get_default (Item.related item) []) ->
                      Str.contains text topic).
Proof.
  intros Hread.
  destruct (read_resource_success_inv _ _ _ Hread)
    as (category & items & item & Hparts & Hget & Hin & ->).
  exists category, items, item.
  split; [exact Hparts|]. split; [exact Hget|]. split; [exact Hin|].
  split; [reflexivity|]. unfold content. split; [|split].
  - exists ("# " ++ Item.name item ++ Str.nl ++ Str.nl
            ++ Item.description item ++ Str.nl ++ Str.nl
            ++ "## Documentation URL" ++ Str.nl).
    eexists. rewrite !append_assoc. reflexivity.
  - intros tag Htag. apply (join_contains ", ") in Htag.
    apply (contains_context
             ("# " ++ Item.name item ++ Str.nl ++ Str.nl
              ++ Item.description item ++ Str.nl ++ Str.nl
              ++ "## Documentation URL" ++ Str.nl
              ++ Item.url item ++ Str.nl ++ Str.nl ++ "## Tags" ++ Str.nl)
             (Str.nl ++ Str.nl ++ "## Related Topics" ++ Str.nl
              ++ Str.join ", " (get_default (Item.related item) []) ++ Str.nl))
      in Htag.
    rewrite !append_assoc in Htag. exact Htag.
  - intros topic Htopic. apply (join_contains ", ") in Htopic.
    apply (contains_context
             ("# " ++ Item.name item ++ Str.nl ++ Str.nl
              ++ Item.description item ++ Str.nl ++ Str.nl
              ++ "## Documentation URL" ++ Str.nl
              ++ Item.url item ++ Str.nl ++ Str.nl ++ "## Tags" ++ Str.nl
              ++ Str.join ", " (get_default (Item.tags item) []) ++ Str.nl
              ++ Str.nl ++ "## Related Topics" ++ Str.nl)
             Str.nl)
      in Htopic.
    rewrite !append_assoc in Htopic. exact Htopic.
Qed.

Lemma served_text_mentions_witness :
  fst (read_resource "docs://rust/book" (with_docs two_docs))
  = inr (content rust_book)
  /\ exists category items item,
      uri_parts "docs://rust/book" = [category; Item.id item]
      /\ dict_get two_docs category = Some items
      /\ In item items
      /\ content rust_book = content item
      /\ Str.contains (content rust_book) (Item.url item)
      /\ (forall tag, In tag (get_default (Item.tags item) []) ->
                      Str.contains (content rust_book) tag)
      /\ (forall topic, In topic (get_default (Item.related item) []) ->
                        Str.contains (content rust_book) topic).
Proof.
  split; [reflexivity|].
  apply (served_text_mentions two_docs "docs://rust/book"). reflexivity.
Defined.

(** X10.  A request looks at one category only: two documents that agree
    on the category the URI names give the same result, whatever their
    other categories hold. *)
Theorem read_resource_other_categories
        (docs docs' : docs_t) (uri category doc_id : string) :
  uri_parts uri = [category; doc_id] ->
  dict_get docs category = dict_get docs' category ->
  fst (read_resource uri (with_docs docs))
  = fst (read_resource uri (with_docs docs')).
Proof.
  intros Hparts Hsame.
  rewrite (read_resource_parts docs _ _ _ Hparts).
  rewrite (read_resource_parts docs' _ _ _ Hparts).
  now rewrite Hsame.
Qed.

Lemma read_resource_other_categories_witness :
  uri_parts "docs://rust/book" = ["rust"; "book"]
  /\ dict_get sample_docs "rust" = dict_get two_docs "rust"
  /\ fst (read_resource "docs://rust/book" (with_docs sample_docs))
     = fst (read_resource "docs://rust/book" (with_docs two_docs)).
Proof.
  split; [reflexivity|]. split; [reflexivity|].
  apply (read_resource_other_categories sample_docs two_docs
           "docs://rust/book" "rust" "book"); reflexivity.
Defined.

(** X11.  What can be read under a canonical URI is listed for that very
    URI: when the category and the id hold no ["/"], [read_resource]
    succeeds on ["docs://" + category + "/" + id] and [list_resources]
    returns, one of the descriptors returned holds the URL the constructor
    made of exactly that string. *)
Theorem readable_is_listed (U : AnyUrl.interface) (docs : docs_t)
        (category doc_id text : string)
        (resources : list (Resource.t (AnyUrl.t U))) :
  Str.slash_free category = true ->
  Str.slash_free doc_id = true ->
  fst (read_resource ("docs://" ++ category ++ "/" ++ doc_id) (with_docs docs))
  = inr text ->
  fst (list_resources U (with_docs docs)) = inr resources ->
  exists resource,
    In resource resources
    /\ AnyUrl.validate U ("docs://" ++ category ++ "/" ++ doc_id)
       = Some (Resource.uri resource).
Proof.
  intros Hc Hi Hread Hlist.
  destruct (read_resource_success_inv _ _ _ Hread)
    as (asked & items & item & Hparts & Hget & Hin & _).
  rewrite (uri_parts_canonical _ _ Hc Hi) in Hparts.
  injection Hparts as <- ->.
  apply list_resources_returned in Hlist.
  assert (In (category, item) (entries docs)) as Hentry.
  { apply in_entries. exists items. split; [|assumption].
    now apply dict_get_some_in. }
  destruct (Forall2_in_r _ _ _ _ Hlist Hentry) as [resource [Hres Hbuilt]].
  exists resource. split; [exact Hres|].
  now apply resource_of_inr in Hbuilt.
Qed.

Lemma readable_is_listed_witness :
  Str.slash_free "go" = true
  /\ Str.slash_free "spec" = true
  /\ fst (read_resource ("docs://" ++ "go" ++ "/" ++ "spec") (with_docs two_docs))
     = inr (content (bare "spec"))
  /\ exists resource,
      In resource [Resource.mk "docs://rust/book" "The Rust Book" "Intro" "text/plain";
                   Resource.mk "docs://go/tour" "N" "D" "text/plain";
                   Resource.mk "docs://go/spec" "N" "D" "text/plain"]
      /\ AnyUrl.validate percent_url ("docs://" ++ "go" ++ "/" ++ "spec")
         = Some (Resource.uri resource).
Proof.
  split; [reflexivity|]. split; [reflexivity|]. split; [reflexivity|].
  apply (readable_is_listed percent_url two_docs "go" "spec"
           (content (bare "spec"))); reflexivity.
Defined.

(** X12.  The scheme is optional for every URI, not only for those of the
    index: [read_resource] succeeds with a text on ["docs://" + uri]
    exactly when it succeeds with that text on [uri]. *)
Theorem scheme_optional (docs : docs_t) (uri text : string) :
  fst (read_resource ("docs://" ++ uri) (with_docs docs)) = inr text
  <-> fst (read_resource uri (with_docs docs)) = inr text.
Proof.
  pose proof (uri_parts_scheme uri) as Hparts.
  split; intros Hread;
    pose proof (read_resource_success_parts _ _ _ Hread) as Hlen.
  - rewrite <- Hread. f_equal. symmetry.
    now apply read_resource_same_parts.
  - rewrite <- Hread. f_equal.
    apply read_resource_same_parts; [assumption|]. now rewrite Hparts.
Qed.

Lemma scheme_optional_witness :
  fst (read_resource "go/tour" (with_docs two_docs)) = inr (content (bare "tour"))
  /\ fst (read_resource ("docs://" ++ "go/tour") (with_docs two_docs))
     = inr (content (bare "tour")).
Proof.
  assert (fst (read_resource "go/tour" (with_docs two_docs))
          = inr (content (bare "tour"))) as H by reflexivity.
  split; [exact H|].
  exact (proj2 (scheme_optional two_docs "go/tour" (content (bare "tour"))) H).
Defined.

(** X13.  A listed URI that the constructor kept as it was built leads
    back to the entry it was listed for: in a document whose categories
    and ids hold no ["/"] and whose ids are unique within their category,
    [read_resource] on the string of such a URI returns the content of
    that entry and of no other. *)
Theorem read_listed_entry_exact
        (U : AnyUrl.interface) (docs : docs_t) (category : string)
        (items : list Item.t) (item : Item.t)
        (resource : Resource.t (AnyUrl.t U)) :
  addressable docs = true ->
  In (category, items) docs ->
  In item items ->
  resource_of U category item = inr resource ->
  listed_uri resource = built_uri category item ->
  read_resource (listed_uri resource) (with_docs docs)
  = (inr (content item), with_docs docs).
Proof.
  intros Hok Hcat Hitem _ Hkept. rewrite Hkept.
  unfold addressable in Hok.
  apply andb_prop in Hok as [Hok Hids]. apply andb_prop in Hok as [Hkeys Hsafe].
  unfold path_safe in Hsafe. rewrite forallb_forall in Hsafe, Hids.
  specialize (Hsafe _ Hcat). specialize (Hids _ Hcat). cbn in Hsafe, Hids.
  apply andb_prop in Hsafe as [Hc Hi]. rewrite forallb_forall in Hi.
  unfold built_uri.
  rewrite (read_resource_parts docs _ category (Item.id item)
             (uri_parts_canonical _ _ Hc (Hi _ Hitem))).
  rewrite (dict_get_in _ _ _ Hkeys Hcat).
  now rewrite (find_document_unique _ _ Hids Hitem).
Qed.

Lemma read_listed_entry_exact_witness :
  addressable two_docs = true
  /\ In ("go", [bare "tour"; bare "spec"]) two_docs
  /\ In (bare "spec") [bare "tour"; bare "spec"]
  /\ resource_of percent_url "go" (bare "spec")
     = inr (Resource.mk "docs://go/spec" "N" "D" "text/plain")
  /\ read_resource "docs://go/spec" (with_docs two_docs)
     = (inr (content (bare "spec")), with_docs two_docs).
Proof.
  split; [reflexivity|]. split; [simpl; auto|]. split; [simpl; auto|].
  split; [reflexivity|].
  apply (read_listed_entry_exact percent_url two_docs "go"
           [bare "tour"; bare "spec"] (bare "spec")
           (Resource.mk "docs://go/spec" "N" "D" "text/plain")).
  - reflexivity.
  - simpl. auto.
  - simpl. auto.
  - reflexivity.
  - reflexivity.
Defined.
